(** * sentry.web.frontend.react_page: the React shell views

    A shallow embedding of [src/sentry/web/frontend/react_page.py]: the
    mixin [ReactMixin] ([get_context], [handle_react]) and the four view
    classes that call it, together with the part of Django the file relies
    on (the response object, the query dictionary, the message storage, the
    signal, the ORM lookup).

    The Python code mutates one request object and calls out to
    collaborators; here the request object lives in a [State] that is
    threaded through a small state-and-exception monad, and every outbound
    call is appended to a chronological log. *)

From Stdlib Require Import ZArith Ascii String.
From stdpp Require Import gmap strings list fin_maps.

Local Open Scope Z_scope.
Local Open Scope string_scope.
Local Open Scope list_scope.

(** ** Python strings *)

(** [str.startswith(prefix)]. *)
Fixpoint startswith (s p : string) {struct p} : bool :=
  match p with
  | EmptyString => true
  | String c p' =>
      match s with
      | EmptyString => false
      | String d s' => if Ascii.eqb d c then startswith s' p' else false
      end
  end.

(** [str.lower()] on ASCII letters, as Django applies it to header names. *)
Definition lower_ascii (c : ascii) : ascii :=
  let n := nat_of_ascii c in
  if ((65 <=? n)%nat && (n <=? 90)%nat)%bool then ascii_of_nat (n + 32) else c.

Fixpoint lower (s : string) : string :=
  match s with
  | EmptyString => EmptyString
  | String c s' => String (lower_ascii c) (lower s')
  end.

(** Truthiness of the result of [dict.get]: [None] and the empty string are
    falsy, every other string is truthy. *)
Definition truthy (v : option string) : bool :=
  match v with
  | None => false
  | Some EmptyString => false
  | Some (String _ _) => true
  end.

(** ** Data model *)

Inductive User :=
  | AnonymousUser
  | AuthenticatedUser (id : Z).

Record Organization := mkOrganization {
  organization_pk : Z;
  organization_slug : string
}.

(** A row of [sentry.models.Project]. *)
Record Project := mkProject {
  project_pk : Z;
  project_organization_id : Z;
  project_slug : string
}.

(** The four view classes; [self] is an instance of one of them. *)
Inductive View :=
  | ReactPageView
  | GenericReactPageView
  | DemoReactPageView
  | GenericDemoReactPageView.

(** A lazily translated string: [ugettext_lazy(msgid)]. *)
Inductive Text :=
  | ugettext_lazy (msgid : string).

Record Message := mkMessage {
  level : Z;
  message : Text
}.

(** [django.contrib.messages.WARNING]. *)
Definition WARNING : Z := 30.

(** [django.http.HttpRequest], the fields this module touches.  [GET] is a
    [QueryDict]: every key maps to the list of its values in query order. *)
Record HttpRequest := mkRequest {
  path : string;
  GET : gmap string (list string);
  user : User;
  META : gmap string string;
  _messages : list Message
}.

(** Values stored in a template context.  [VRequest] is the reference to the
    request object, not a copy of it: the template reads the object as it is
    when rendering happens. *)
Inductive Value :=
  | VBool (b : bool)
  | VStr (s : string)
  | VRequest.

(** [django.http.HttpResponse]: headers are kept under their lower-cased
    name, with the name as written and the value. *)
Record HttpResponse := mkResponse {
  status_code : Z;
  headers : gmap string (string * string);
  content : string
}.

Record Settings := mkSettings {
  CSRF_COOKIE_NAME : string;
  DEFAULT_CONTENT_TYPE : string;
  DEFAULT_CHARSET : string
}.

(** ** Collaborator calls and the threaded state *)

Inductive Call :=
  | CallGetCsrfToken
  | CallRenderToString (template_name : string) (context : gmap string Value)
      (seen : HttpRequest)
  | CallFilterFirst (organization : Organization) (slug : string)
  | CallSend (project : option Project) (user : User) (sender : View)
  | CallAddMessage (level : Z) (message : Text).

Inductive Exn :=
  | CsrfFailure
  | TemplateFailure
  | KeyError (key : string).

Record State := mkState {
  request : HttpRequest;
  db : list Project;
  calls : list Call
}.

Inductive Outcome (A : Type) :=
  | Returned (a : A)
  | Raised (e : Exn).
Arguments Returned {A} a.
Arguments Raised {A} e.

Definition M (A : Type) : Type := State -> Outcome A * State.

#[global] Instance M_ret : MRet M := λ A a s, (Returned a, s).
#[global] Instance M_bind : MBind M := λ A B f m s,
  match m s with
  | (Returned a, s') => f a s'
  | (Raised e, s') => (Raised e, s')
  end.

Definition get_request : M HttpRequest := λ s, (Returned (request s), s).

Definition record (c : Call) : M unit := λ s,
  (Returned tt, mkState (request s) (db s) (calls s ++ [c])).

Definition raise {A} (e : Exn) : M A := λ s, (Raised e, s).

(** ** Django pieces *)

(** [QueryDict.get(key)]: the last value given for the key, [None] when the
    key is absent (or its list is empty). *)
Definition QueryDict_get (q : gmap string (list string)) (key : string) : option string :=
  match q !! key with
  | Some l => last l
  | None => None
  end.

(** [HttpResponse(content)]: status 200 and the default content type. *)
Definition HttpResponse_init (settings : Settings) (body : string) : HttpResponse :=
  mkResponse 200
    {[ "content-type" :=
         ("Content-Type",
          DEFAULT_CONTENT_TYPE settings +:+ "; charset=" +:+ DEFAULT_CHARSET settings) ]}
    body.

(** [response[header] = value]. *)
Definition HttpResponse_setitem (r : HttpResponse) (header value : string) : HttpResponse :=
  mkResponse (status_code r) (<[lower header := (header, value)]> (headers r)) (content r).

(** [response[header]]. *)
Definition HttpResponse_getitem (r : HttpResponse) (header : string) : option string :=
  snd <$> headers r !! lower header.

(** [QuerySet.first()] on a query set without ordering: the matching row with
    the smallest primary key. *)
Fixpoint QuerySet_first (rows : list Project) : option Project :=
  match rows with
  | [] => None
  | p :: rest =>
      match QuerySet_first rest with
      | Some q => if Z.ltb (project_pk q) (project_pk p) then Some q else Some p
      | None => Some p
      end
  end.

(** [Project.objects.filter(organization=organization, slug=slug)]. *)
Definition Project_objects_filter (rows : list Project) (organization : Organization)
    (slug : string) : list Project :=
  filter (λ p, project_organization_id p = organization_pk organization
               ∧ project_slug p = slug) rows.

Definition Project_objects_filter_first (organization : Organization) (slug : string)
    : M (option Project) :=
  λ s, (Returned (QuerySet_first (Project_objects_filter (db s) organization slug)),
        mkState (request s) (db s) (calls s ++ [CallFilterFirst organization slug])).

(** [first_event_pending.send(project=project, user=request.user, sender=self)]:
    fire and forget. *)
Definition first_event_pending_send (project : option Project) (u : User) (sender : View)
    : M unit :=
  record (CallSend project u sender).

Definition with_META (r : HttpRequest) (meta : gmap string string) : HttpRequest :=
  mkRequest (path r) (GET r) (user r) meta (_messages r).

Definition with_messages (r : HttpRequest) (msgs : list Message) : HttpRequest :=
  mkRequest (path r) (GET r) (user r) (META r) msgs.

(** [messages.add_message(request, level, message)]: appends to the storage
    carried by the request object. *)
Definition messages_add_message (lvl : Z) (msg : Text) : M unit := λ s,
  let r := request s in
  (Returned tt,
   mkState (with_messages r (_messages r ++ [mkMessage lvl msg]))
           (db s) (calls s ++ [CallAddMessage lvl msg])).

(** [kwargs[key]]. *)
Definition getitem (kwargs : gmap string string) (key : string) : M string :=
  match kwargs !! key with
  | Some v => mret v
  | None => raise (KeyError key)
  end.

(** ** Reading the log *)

(** The calls a run added: what the final log holds beyond the initial one. *)
Definition new_calls (s s' : State) : list Call :=
  drop (length (calls s)) (calls s').

Definition signals_sent (l : list Call) : list (option Project * User * View) :=
  omap (λ c, match c with CallSend p u v => Some (p, u, v) | _ => None end) l.

Definition messages_enqueued (l : list Call) : list Message :=
  omap (λ c, match c with CallAddMessage lvl msg => Some (mkMessage lvl msg) | _ => None end) l.

Definition lookups_made (l : list Call) : list (Organization * string) :=
  omap (λ c, match c with CallFilterFirst o slug => Some (o, slug) | _ => None end) l.

Definition contexts_rendered (l : list Call) : list (gmap string Value) :=
  omap (λ c, match c with CallRenderToString _ ctx _ => Some ctx | _ => None end) l.

(** ** Scopes *)

Module Scope.
Inductive t :=
  | Generic
  | GenericDemo
  | Organization (organization : Organization)
  | OrganizationDemo (organization : Organization).
End Scope.

(** ** The environment of the views

    Process-wide configuration and the two collaborators that can fail: the
    anti-forgery token service, which works on [request.META] and returns the
    token with the updated mapping, and the template engine, which sees the
    context and the request object the context refers to. *)
Record Env := mkEnv {
  settings : Settings;
  csrf_get_token : gmap string string -> option (string * gmap string string);
  loader_render_to_string : string -> gmap string Value -> HttpRequest -> option string
}.

Section Views.

Variable env : Env.

Definition get_csrf_token : M string := λ s,
  let r := request s in
  let log := calls s ++ [CallGetCsrfToken] in
  match csrf_get_token env (META r) with
  | Some (token, meta) => (Returned token, mkState (with_META r meta) (db s) log)
  | None => (Raised CsrfFailure, mkState r (db s) log)
  end.

Definition render_to_string (template_name : string) (context : gmap string Value)
    : M string := λ s,
  let s' := mkState (request s) (db s)
              (calls s ++ [CallRenderToString template_name context (request s)]) in
  match loader_render_to_string env template_name context (request s) with
  | Some html => (Returned html, s')
  | None => (Raised TemplateFailure, s')
  end.

(** *** ReactMixin *)

Definition get_context (req : HttpRequest) : gmap string Value :=
  <["CSRF_COOKIE_NAME" := VStr (CSRF_COOKIE_NAME (settings env))]>
    (<["request" := VRequest]>
       (<["is_demo" := VBool (startswith (path req) "/sentry/earth/")]> ∅)).

Definition handle_react : M HttpResponse :=
  req ← get_request;
  let context := get_context req in
  _ ← get_csrf_token;
  template ← render_to_string "sentry/bases/react.html" context;
  let response := HttpResponse_init (settings env) template in
  let response := HttpResponse_setitem response "Content-Type" "text/html" in
  mret response.

(** *** The view classes *)

Definition ReactPageView_handle (self : View) (organization : Organization)
    (kwargs : gmap string string) : M HttpResponse :=
  req ← get_request;
  _ ← (if bool_decide ("project_id" ∈ dom kwargs)
          && truthy (QueryDict_get (GET req) "onboarding")
       then
         project_id ← getitem kwargs "project_id";
         project ← Project_objects_filter_first organization project_id;
         first_event_pending_send project (user req) self
       else mret tt);
  handle_react.

Definition GenericReactPageView_handle (self : View) (kwargs : gmap string string)
    : M HttpResponse :=
  handle_react.

Definition demo_text : string :=
  "This is a DEMO. Data will not be written to database and you are logged in as dummy user. This is a Sentry playground with dummy/demo data! Feel free to mess around!".

Definition DemoReactPageView_handle (self : View) (organization : Organization)
    (kwargs : gmap string string) : M HttpResponse :=
  response ← handle_react;
  _ ← messages_add_message WARNING (ugettext_lazy demo_text);
  mret response.

Definition GenericDemoReactPageView_handle (self : View) (kwargs : gmap string string)
    : M HttpResponse :=
  response ← handle_react;
  mret response.

(** *** Dispatch on the scope

    The URL configuration binds each kind of page to one view class; a scope
    stands for that binding, an organization-bound scope carrying the
    organization the base view resolved. *)

Definition renderShell (scope : Scope.t) (kwargs : gmap string string) : M HttpResponse :=
  match scope with
  | Scope.Generic => GenericReactPageView_handle GenericReactPageView kwargs
  | Scope.GenericDemo => GenericDemoReactPageView_handle GenericDemoReactPageView kwargs
  | Scope.Organization o => ReactPageView_handle ReactPageView o kwargs
  | Scope.OrganizationDemo o => DemoReactPageView_handle DemoReactPageView o kwargs
  end.

End Views.

(** ** Concrete collaborators and inputs used in the examples *)

Module Fixture.

Definition settings : Settings := mkSettings "sc" "text/html" "utf-8".

(** A token service that keeps the token of the session when there is one,
    generates one otherwise, and marks it as used so that the cookie is set. *)
Definition csrf_get_token (meta : gmap string string)
    : option (string * gmap string string) :=
  let token := default "fresh-token" (meta !! "CSRF_COOKIE") in
  Some (token, <["CSRF_COOKIE_USED" := "True"]> (<["CSRF_COOKIE" := token]> meta)).

(** A template engine that knows the shell template only, and renders the
    token it finds on the request. *)
Definition loader_render_to_string (template_name : string)
    (context : gmap string Value) (req : HttpRequest) : option string :=
  if bool_decide (template_name = "sentry/bases/react.html")
  then Some ("<html>" +:+ default "" (META req !! "CSRF_COOKIE") +:+ "</html>")
  else None.

Definition acme : Organization := mkOrganization 1 "acme".

Definition rows : list Project :=
  [ mkProject 7 1 "backend"; mkProject 9 2 "frontend" ].

Definition request_of (p : string) (query : gmap string (list string)) : HttpRequest :=
  mkRequest p query (AuthenticatedUser 42) ∅ [].

Definition state_of (p : string) (query : gmap string (list string)) : State :=
  mkState (request_of p query) rows [].

Definition env : Env := mkEnv settings csrf_get_token loader_render_to_string.

End Fixture.


(** ** Summaries of a run

    Descriptions of what the handlers do, used to state and prove the
    properties below; each is tied to the code by an equation of the section
    that follows. *)

Section Summaries.

Variable env : Env.

(** The response [handle_react] builds around a rendered document. *)
Definition shell_response (html : string) : HttpResponse :=
  HttpResponse_setitem (HttpResponse_init (settings env) html) "Content-Type" "text/html".

(** What a run of [handle_react] amounts to on a request object: the
    outcome, the request object afterwards, and the calls made, in order. *)
Definition react_outcome (r : HttpRequest)
    : Outcome HttpResponse * HttpRequest * list Call :=
  match csrf_get_token env (META r) with
  | None => (Raised CsrfFailure, r, [CallGetCsrfToken])
  | Some (token, meta) =>
      let r' := with_META r meta in
      let ctx := get_context env r in
      let log := [CallGetCsrfToken; CallRenderToString "sentry/bases/react.html" ctx r'] in
      match loader_render_to_string env "sentry/bases/react.html" ctx r' with
      | Some html => (Returned (shell_response html), r', log)
      | None => (Raised TemplateFailure, r', log)
      end
  end.

End Summaries.

(** The lookup and the signal of [ReactPageView.handle], when its condition
    holds. *)
Definition onboarding_calls (self : View) (o : Organization)
    (kwargs : gmap string string) (s : State) : list Call :=
  match kwargs !! "project_id" with
  | Some slug =>
      if truthy (QueryDict_get (GET (request s)) "onboarding")
      then [CallFilterFirst o slug;
            CallSend (QuerySet_first (Project_objects_filter (db s) o slug))
                     (user (request s)) self]
      else []
  | None => []
  end.

Definition demo_message : Message := mkMessage WARNING (ugettext_lazy demo_text).

(** What a scope adds around [handle_react]: calls before it, messages
    after it. *)
Definition scope_pre (scope : Scope.t) (kwargs : gmap string string) (s : State)
    : list Call :=
  match scope with
  | Scope.Organization o => onboarding_calls ReactPageView o kwargs s
  | _ => []
  end.

Definition scope_messages (scope : Scope.t) (out : Outcome HttpResponse) : list Message :=
  match scope, out with
  | Scope.OrganizationDemo _, Returned _ => [demo_message]
  | _, _ => []
  end.

Definition add_message_call (m : Message) : Call := CallAddMessage (level m) (message m).

(** The calls only some of the views make. *)
Definition is_variant_call (c : Call) : bool :=
  match c with
  | CallFilterFirst _ _ | CallSend _ _ _ | CallAddMessage _ _ => true
  | CallGetCsrfToken | CallRenderToString _ _ _ => false
  end.

(** The query carries the onboarding flag: the last value given for
    [onboarding] is a string that is not empty. *)
Definition onboarding_flag (req : HttpRequest) : Prop :=
  exists vs v, GET req !! "onboarding" = Some (vs ++ [v]) /\ v <> "".

(** The calls to the token service in a log, and the renderings with what
    the template engine was given: template name, context, and the request
    object as it was at that moment. *)
Definition token_calls (l : list Call) : list unit :=
  omap (λ c, match c with CallGetCsrfToken => Some tt | _ => None end) l.

Definition renders_made (l : list Call)
    : list (string * gmap string Value * HttpRequest) :=
  omap (λ c, match c with
             | CallRenderToString name ctx seen => Some (name, ctx, seen)
             | _ => None
             end) l.

(** An environment in which a collaborator is out of order: the template
    engine finds no template. *)
Module Outage.


End Outage.

(** ** How the handlers run *)

Section Runs.

Variable env : Env.

Lemma new_calls_app s s' l : calls s' = calls s ++ l -> new_calls s s' = l.
Proof. intros E. unfold new_calls. rewrite E. apply drop_app_length. Qed.

Lemma handle_react_run s :
  handle_react env s =
  let '(out, r', l) := react_outcome env (request s) in
  (out, mkState r' (db s) (calls s ++ l)).
Proof.
  unfold handle_react, react_outcome, get_request, get_csrf_token, render_to_string,
    mbind, M_bind, mret, M_ret, shell_response.
  destruct (csrf_get_token env (META (request s))) as [[token meta]|]; cbn; [|reflexivity].
  rewrite <- app_assoc. cbn.
  destruct (loader_render_to_string _ _ _ _); reflexivity.
Qed.

Lemma GenericReactPageView_handle_run self kwargs s :
  GenericReactPageView_handle env self kwargs s = handle_react env s.
Proof. reflexivity. Qed.

Lemma GenericDemoReactPageView_handle_run self kwargs s :
  GenericDemoReactPageView_handle env self kwargs s = handle_react env s.
Proof.
  unfold GenericDemoReactPageView_handle, mbind, M_bind, mret, M_ret.
  destruct (handle_react env s) as [[resp|e] s']; reflexivity.
Qed.

Lemma DemoReactPageView_handle_run self o kwargs s :
  DemoReactPageView_handle env self o kwargs s =
  match react_outcome env (request s) with
  | (Returned resp, r', l) =>
      (Returned resp,
       mkState (with_messages r' (_messages r' ++ [demo_message])) (db s)
               (calls s ++ l ++ [CallAddMessage WARNING (ugettext_lazy demo_text)]))
  | (Raised e, r', l) => (Raised e, mkState r' (db s) (calls s ++ l))
  end.
Proof.
  unfold DemoReactPageView_handle, mbind, M_bind. rewrite handle_react_run.
  destruct (react_outcome env (request s)) as [[[resp|e] r'] l]; cbn; [|reflexivity].
  rewrite <- app_assoc. reflexivity.
Qed.

Lemma ReactPageView_handle_run self o kwargs s :
  ReactPageView_handle env self o kwargs s =
  let '(out, r', l) := react_outcome env (request s) in
  (out, mkState r' (db s) (calls s ++ onboarding_calls self o kwargs s ++ l)).
Proof.
  unfold ReactPageView_handle, onboarding_calls, getitem, get_request.
  unfold mbind at 1. unfold M_bind at 1.
  destruct (kwargs !! "project_id") as [slug|] eqn:K.
  - rewrite bool_decide_true by (apply elem_of_dom; eauto). cbn [andb].
    destruct (truthy _).
    + unfold mbind, M_bind, mret, M_ret, raise.
      unfold Project_objects_filter_first, first_event_pending_send, record. cbn.
      rewrite handle_react_run. cbn.
      destruct (react_outcome env (request s)) as [[out r'] l].
      rewrite <- !app_assoc. reflexivity.
    + unfold mbind, M_bind, mret, M_ret. rewrite handle_react_run.
      destruct (react_outcome env (request s)) as [[out r'] l]. reflexivity.
  - rewrite bool_decide_false by (rewrite elem_of_dom, K; intros [? ?]; discriminate).
    cbn [andb]. unfold mbind, M_bind, mret, M_ret. rewrite handle_react_run.
    destruct (react_outcome env (request s)) as [[out r'] l]. reflexivity.
Qed.

Lemma with_messages_same r : with_messages r (_messages r ++ []) = r.
Proof. destruct r. unfold with_messages. cbn. rewrite app_nil_r. reflexivity. Qed.

Lemma renderShell_run scope kwargs s :
  renderShell env scope kwargs s =
  let '(out, r', l) := react_outcome env (request s) in
  let msgs := scope_messages scope out in
  (out, mkState (with_messages r' (_messages r' ++ msgs)) (db s)
          (calls s ++ scope_pre scope kwargs s ++ l ++ map add_message_call msgs)).
Proof.
  destruct scope as [| |o|o]; unfold renderShell.
  - rewrite GenericReactPageView_handle_run, handle_react_run.
    destruct (react_outcome env (request s)) as [[out r'] l]. cbn.
    rewrite with_messages_same, app_nil_r. reflexivity.
  - rewrite GenericDemoReactPageView_handle_run, handle_react_run.
    destruct (react_outcome env (request s)) as [[out r'] l]. cbn.
    rewrite with_messages_same, app_nil_r. reflexivity.
  - rewrite ReactPageView_handle_run.
    destruct (react_outcome env (request s)) as [[out r'] l]. cbn.
    rewrite with_messages_same, app_nil_r. reflexivity.
  - rewrite DemoReactPageView_handle_run.
    destruct (react_outcome env (request s)) as [[[resp|e] r'] l]; cbn.
    + reflexivity.
    + rewrite with_messages_same, app_nil_r. reflexivity.
Qed.

End Runs.

(** ** Facts about the Python and Django pieces *)

Lemma append_cons c p rest : String c p +:+ rest = String c (p +:+ rest).
Proof. reflexivity. Qed.

Lemma startswith_spec s p :
  startswith s p = true <-> exists rest, s = p +:+ rest.
Proof.
  revert s. induction p as [|c p IH]; intros s; cbn.
  - split; [intros _; exists s; reflexivity | reflexivity].
  - destruct s as [|d s].
    + split; [discriminate | intros [rest E]; discriminate].
    + destruct (Ascii.eqb_spec d c) as [->|Hne].
      * rewrite IH. split; intros [rest E]; exists rest;
          rewrite append_cons in *; congruence.
      * split; [discriminate | intros [rest E]; rewrite append_cons in E; congruence].
Qed.

Lemma truthy_spec v : truthy v = true <-> exists x, v = Some x /\ x <> "".
Proof.
  destruct v as [[|c x]|]; cbn; split; try discriminate.
  - intros [x [E N]]. congruence.
  - intros _. eexists; split; [reflexivity | discriminate].
  - intros [x' [E N]]. reflexivity.
  - intros [x [E N]]. discriminate.
Qed.

Lemma QueryDict_get_spec q key v :
  QueryDict_get q key = Some v <-> exists vs, q !! key = Some (vs ++ [v]).
Proof.
  unfold QueryDict_get. destruct (q !! key) as [l|].
  - rewrite last_Some. split; intros [vs E]; exists vs; congruence.
  - split; [discriminate | intros [vs E]; discriminate].
Qed.

Lemma QuerySet_first_elem rows p : QuerySet_first rows = Some p -> p ∈ rows.
Proof.
  revert p. induction rows as [|r rows IH]; cbn; intros p; [discriminate|].
  destruct (QuerySet_first rows) as [q|].
  - destruct (Z.ltb _ _); intros [= <-]; [right; apply IH; reflexivity | left].
  - intros [= <-]. left.
Qed.

Lemma QuerySet_first_None rows : QuerySet_first rows = None <-> rows = [].
Proof.
  destruct rows as [|r rows]; cbn; [done|].
  destruct (QuerySet_first rows); [destruct (Z.ltb _ _)|]; done.
Qed.

Lemma Project_objects_filter_elem rows o slug p :
  p ∈ Project_objects_filter rows o slug <->
  p ∈ rows /\ project_organization_id p = organization_pk o /\ project_slug p = slug.
Proof. unfold Project_objects_filter. rewrite list_elem_of_filter. tauto. Qed.

(** ** Reading the log of a run *)

Lemma signals_sent_app l1 l2 : signals_sent (l1 ++ l2) = signals_sent l1 ++ signals_sent l2.
Proof. apply omap_app. Qed.

Lemma messages_enqueued_app l1 l2 :
  messages_enqueued (l1 ++ l2) = messages_enqueued l1 ++ messages_enqueued l2.
Proof. apply omap_app. Qed.

Lemma lookups_made_app l1 l2 : lookups_made (l1 ++ l2) = lookups_made l1 ++ lookups_made l2.
Proof. apply omap_app. Qed.

Lemma contexts_rendered_app l1 l2 :
  contexts_rendered (l1 ++ l2) = contexts_rendered l1 ++ contexts_rendered l2.
Proof. apply omap_app. Qed.

Section Logs.

Variable env : Env.

(** [handle_react] alone looks nothing up, sends no signal and enqueues no
    message; it renders with the context of the request it was given. *)
Lemma react_outcome_log r :
  let l := snd (react_outcome env r) in
  signals_sent l = [] /\ messages_enqueued l = [] /\ lookups_made l = [] /\
  filter (λ c, ¬ is_variant_call c) l = l /\
  contexts_rendered l ⊆ [get_context env r].
Proof.
  unfold react_outcome.
  destruct (csrf_get_token env (META r)) as [[token meta]|]; cbn.
  - destruct (loader_render_to_string _ _ _ _); cbn; repeat split; set_solver.
  - repeat split; set_solver.
Qed.

Lemma onboarding_calls_log self o kwargs s :
  let l := onboarding_calls self o kwargs s in
  messages_enqueued l = [] /\ contexts_rendered l = [] /\
  filter (λ c, ¬ is_variant_call c) l = [].
Proof.
  unfold onboarding_calls.
  destruct (kwargs !! "project_id"); [destruct (truthy _)|]; cbn; done.
Qed.

Lemma scope_pre_log scope kwargs s :
  let l := scope_pre scope kwargs s in
  messages_enqueued l = [] /\ contexts_rendered l = [] /\
  filter (λ c, ¬ is_variant_call c) l = [].
Proof. destruct scope; cbn; try done. apply onboarding_calls_log. Qed.

Lemma scope_messages_log scope out :
  let l := map add_message_call (scope_messages scope out) in
  messages_enqueued l = scope_messages scope out /\ signals_sent l = [] /\
  lookups_made l = [] /\ contexts_rendered l = [] /\
  filter (λ c, ¬ is_variant_call c) l = [].
Proof. destruct scope, out; cbn; done. Qed.

End Logs.

(** ** The properties of the views *)

Section Properties.

Variable env : Env.

(** C8.  The context [get_context] builds has exactly three keys: [is_demo],
    a boolean computed from the request path; [request], the request object
    passed through; and [CSRF_COOKIE_NAME], the name of the anti-forgery
    cookie taken from the settings. *)
Theorem get_context_three_keys (req : HttpRequest) :
  dom (get_context env req) = ({[ "is_demo"; "request"; "CSRF_COOKIE_NAME" ]} : gset string) /\
  size (get_context env req) = 3%nat /\
  get_context env req !! "is_demo" = Some (VBool (startswith (path req) "/sentry/earth/")) /\
  get_context env req !! "request" = Some VRequest /\
  get_context env req !! "CSRF_COOKIE_NAME" = Some (VStr (CSRF_COOKIE_NAME (settings env))).
Proof.
  unfold get_context. split; [|split; [|split; [|split]]].
  - rewrite !dom_insert_L, dom_empty_L. set_solver.
  - rewrite !map_size_insert_None, map_size_empty; [reflexivity | by simplify_map_eq ..].
  - by simplify_map_eq.
  - by simplify_map_eq.
  - by simplify_map_eq.
Qed.

(** C3.  [is_demo] is true exactly when the path of the request starts with
    the demo prefix, and every scope renders with that context: the scope
    plays no part in it. *)
Theorem is_demo_iff_demo_prefix (scope : Scope.t) (kwargs : gmap string string) (s : State) :
  (exists b, get_context env (request s) !! "is_demo" = Some (VBool b) /\
             (b = true <-> exists rest, path (request s) = "/sentry/earth/" +:+ rest)) /\
  contexts_rendered (new_calls s (snd (renderShell env scope kwargs s)))
    ⊆ [get_context env (request s)].
Proof.
  split.
  - exists (startswith (path (request s)) "/sentry/earth/"). split.
    + unfold get_context. by simplify_map_eq.
    + apply startswith_spec.
  - rewrite renderShell_run.
    pose proof (react_outcome_log env (request s)) as (_ & _ & _ & _ & Hctx).
    destruct (react_outcome env (request s)) as [[out r'] l]. cbn [fst snd] in Hctx |- *.
    erewrite new_calls_app by reflexivity.
    destruct (scope_pre_log scope kwargs s) as (_ & Hpre & _).
    destruct (scope_messages_log scope out) as (_ & _ & _ & Hpost & _).
    rewrite !contexts_rendered_app, Hpre, Hpost, app_nil_r. exact Hctx.
Qed.

(** C9.  [GenericDemoReactPageView.handle] and [GenericReactPageView.handle]
    both run as a bare [handle_react]: same outcome, same final state. *)
Theorem generic_views_run_handle_react (self self' : View)
    (kwargs kwargs' : gmap string string) (s : State) :
  GenericDemoReactPageView_handle env self kwargs s = handle_react env s /\
  GenericReactPageView_handle env self' kwargs' s = handle_react env s.
Proof.
  split.
  - apply GenericDemoReactPageView_handle_run.
  - apply GenericReactPageView_handle_run.
Qed.

(** C10.  [DemoReactPageView.handle] does not read its organization: two runs
    that differ in the organization only return the same response and leave
    the same state, the enqueued message included. *)
Theorem DemoReactPageView_handle_ignores_organization (self : View)
    (o1 o2 : Organization) (kwargs : gmap string string) (s : State) :
  DemoReactPageView_handle env self o1 kwargs s =
  DemoReactPageView_handle env self o2 kwargs s.
Proof. rewrite !DemoReactPageView_handle_run. reflexivity. Qed.

(** C7.  Whatever the scope, the outcome is that of [handle_react] on the
    same request; the data base, the path, the query and the user are left
    as they were; [request.META] ends as [handle_react] leaves it; the message
    storage grows by the messages enqueued; and apart from the lookup, the
    signal and the message, the calls made are those of [handle_react]. *)
Theorem variant_dispatch_frame (scope : Scope.t) (kwargs : gmap string string) (s : State) :
  let s' := snd (renderShell env scope kwargs s) in
  let s0 := snd (handle_react env s) in
  fst (renderShell env scope kwargs s) = fst (handle_react env s) /\
  db s' = db s /\
  path (request s') = path (request s) /\
  GET (request s') = GET (request s) /\
  user (request s') = user (request s) /\
  META (request s') = META (request s0) /\
  _messages (request s') = _messages (request s) ++ messages_enqueued (new_calls s s') /\
  filter (λ c, ¬ is_variant_call c) (new_calls s s') = new_calls s s0.
Proof.
  cbn zeta. rewrite renderShell_run, handle_react_run.
  pose proof (react_outcome_log env (request s)) as (Hsig & Hmsg & _ & Hfil & _).
  assert (Hreq : let r' := snd (fst (react_outcome env (request s))) in
            path r' = path (request s) /\ GET r' = GET (request s) /\
            user r' = user (request s) /\ _messages r' = _messages (request s)).
  { unfold react_outcome. destruct (csrf_get_token _ _) as [[token meta]|]; cbn; [|done].
    destruct (loader_render_to_string _ _ _ _); done. }
  destruct (react_outcome env (request s)) as [[out r'] l].
  cbn [fst snd] in Hsig, Hmsg, Hfil, Hreq |- *. destruct Hreq as (Hp & Hg & Hu & Hm).
  destruct (scope_pre_log scope kwargs s) as (Hpre_m & _ & Hpre_f).
  destruct (scope_messages_log scope out) as (Hpost_m & _ & _ & _ & Hpost_f).
  erewrite !new_calls_app by reflexivity.
  rewrite !messages_enqueued_app, Hpre_m, Hmsg, Hpost_m, !filter_app, Hpre_f, Hfil,
    Hpost_f, app_nil_r, Hm.
  repeat split; done.
Qed.

Lemma truthy_onboarding req :
  truthy (QueryDict_get (GET req) "onboarding") = true <-> onboarding_flag req.
Proof.
  rewrite truthy_spec. unfold onboarding_flag. split.
  - intros (v & E & N). apply QueryDict_get_spec in E as [vs E]. eauto.
  - intros (vs & v & E & N). exists v. split; [|done]. apply QueryDict_get_spec. eauto.
Qed.

(** The two ways the condition of [ReactPageView.handle] can go. *)
Lemma onboarding_calls_cases self o kwargs s :
  (exists slug, kwargs !! "project_id" = Some slug /\ onboarding_flag (request s) /\
     onboarding_calls self o kwargs s =
       [CallFilterFirst o slug;
        CallSend (QuerySet_first (Project_objects_filter (db s) o slug))
                 (user (request s)) self]) \/
  (~ (is_Some (kwargs !! "project_id") /\ onboarding_flag (request s)) /\
     onboarding_calls self o kwargs s = []).
Proof.
  unfold onboarding_calls. destruct (kwargs !! "project_id") as [slug|].
  - destruct (truthy _) eqn:T.
    + left. exists slug. apply truthy_onboarding in T. done.
    + right. split; [|done]. intros [_ F]. apply truthy_onboarding in F. congruence.
  - right. split; [|done]. intros [[? ?] _]. discriminate.
Qed.

Lemma ReactPageView_handle_new_calls self o kwargs s :
  exists l, new_calls s (snd (ReactPageView_handle env self o kwargs s))
            = onboarding_calls self o kwargs s ++ l /\
            signals_sent l = [] /\ lookups_made l = [].
Proof.
  rewrite ReactPageView_handle_run.
  pose proof (react_outcome_log env (request s)) as (Hsig & _ & Hlook & _).
  destruct (react_outcome env (request s)) as [[out r'] l]. cbn [fst snd] in *.
  exists l. split; [|done]. by apply new_calls_app.
Qed.

(** C5.  When the token service and the template engine succeed, every scope
    returns a response with status 200, the single header
    [Content-Type: text/html], and the rendered document as its body. *)
Theorem renderShell_returns_html (scope : Scope.t) (kwargs : gmap string string)
    (s : State) (token : string) (meta : gmap string string) (html : string) :
  csrf_get_token env (META (request s)) = Some (token, meta) ->
  loader_render_to_string env "sentry/bases/react.html"
    (get_context env (request s)) (with_META (request s) meta) = Some html ->
  exists resp s',
    renderShell env scope kwargs s = (Returned resp, s') /\
    status_code resp = 200 /\
    HttpResponse_getitem resp "Content-Type" = Some "text/html" /\
    headers resp = {[ "content-type" := ("Content-Type", "text/html") ]} /\
    content resp = html.
Proof.
  intros Htok Hrender. rewrite renderShell_run. unfold react_outcome.
  rewrite Htok. cbn zeta. rewrite Hrender.
  eexists _, _. split; [reflexivity|].
  unfold shell_response, HttpResponse_setitem, HttpResponse_init, HttpResponse_getitem.
  cbn [status_code headers content].
  change (lower "Content-Type") with "content-type".
  rewrite insert_singleton_eq, lookup_singleton_eq. done.
Qed.

(** C6.  Whenever [handle_react] renders the template, the call to the token
    service comes first in the log, and the request object the template
    engine sees already carries the [META] the token service produced. *)
Theorem csrf_token_before_render (s : State) (i : nat) (template_name : string)
    (ctx : gmap string Value) (seen : HttpRequest) :
  new_calls s (snd (handle_react env s)) !! i
    = Some (CallRenderToString template_name ctx seen) ->
  exists j token,
    (j < i)%nat /\
    new_calls s (snd (handle_react env s)) !! j = Some CallGetCsrfToken /\
    csrf_get_token env (META (request s)) = Some (token, META seen).
Proof.
  rewrite handle_react_run. unfold react_outcome.
  destruct (csrf_get_token env (META (request s))) as [[token meta]|].
  - cbn zeta. destruct (loader_render_to_string _ _ _ _);
      (erewrite new_calls_app by reflexivity);
      (destruct i as [|[|i]]; [discriminate | | discriminate]);
      intros [= <- <- <-]; exists 0%nat, token; (split; [lia|done]).
  - erewrite new_calls_app by reflexivity.
    destruct i as [|i]; discriminate.
Qed.

(** C1, as the code has it.  When a project slug is supplied and the
    onboarding value is not empty, exactly one [first_event_pending] signal
    is sent, whether or not the lookup finds a project: it carries the
    project found for the organization and the slug, or [None] when no row
    matches; the outcome is that of [handle_react]. *)
Theorem first_event_pending_carries_lookup (self : View) (o : Organization)
    (kwargs : gmap string string) (s : State) (slug : string) :
  kwargs !! "project_id" = Some slug ->
  truthy (QueryDict_get (GET (request s)) "onboarding") = true ->
  exists found,
    signals_sent (new_calls s (snd (ReactPageView_handle env self o kwargs s)))
      = [(found, user (request s), self)] /\
    (forall p, found = Some p ->
       p ∈ db s /\ project_organization_id p = organization_pk o /\ project_slug p = slug) /\
    (found = None <->
       forall p, p ∈ db s ->
         ~ (project_organization_id p = organization_pk o /\ project_slug p = slug)) /\
    fst (ReactPageView_handle env self o kwargs s) = fst (handle_react env s).
Proof.
  intros K T.
  exists (QuerySet_first (Project_objects_filter (db s) o slug)).
  split; [|split; [|split]].
  - destruct (ReactPageView_handle_new_calls self o kwargs s) as (l & -> & Hsig & _).
    unfold onboarding_calls. rewrite K, T, signals_sent_app, Hsig. reflexivity.
  - intros p E. apply QuerySet_first_elem, Project_objects_filter_elem in E. exact E.
  - rewrite QuerySet_first_None. split.
    + intros E p Hp Hmatch.
      assert (p ∈ Project_objects_filter (db s) o slug) as Hin
        by (apply Project_objects_filter_elem; tauto).
      rewrite E in Hin. by apply not_elem_of_nil in Hin.
    + intros Hnone. destruct (Project_objects_filter (db s) o slug) as [|p rest] eqn:E;
        [reflexivity|].
      assert (p ∈ Project_objects_filter (db s) o slug) as Hin by (rewrite E; left).
      apply Project_objects_filter_elem in Hin as (Hp & Hmatch).
      destruct (Hnone p Hp Hmatch).
  - rewrite ReactPageView_handle_run, handle_react_run.
    destruct (react_outcome env (request s)) as [[out r'] l]. reflexivity.
Qed.

(** C4, as the code has it.  The lookup-and-signal branch of
    [ReactPageView.handle] is taken exactly when a project slug is supplied
    and the last value given for [onboarding] is not empty; when the
    parameter is absent or its value is empty, nothing is looked up and no
    signal is sent. *)
Theorem onboarding_branch_iff_nonempty_value (self : View) (o : Organization)
    (kwargs : gmap string string) (s : State) :
  let l := new_calls s (snd (ReactPageView_handle env self o kwargs s)) in
  ((exists slug found, kwargs !! "project_id" = Some slug /\
      lookups_made l = [(o, slug)] /\ signals_sent l = [(found, user (request s), self)])
   <-> is_Some (kwargs !! "project_id") /\ onboarding_flag (request s)) /\
  ((lookups_made l = [] /\ signals_sent l = [])
   <-> ~ (is_Some (kwargs !! "project_id") /\ onboarding_flag (request s))).
Proof.
  cbn zeta.
  destruct (ReactPageView_handle_new_calls self o kwargs s) as (l & -> & Hsig & Hlook).
  rewrite lookups_made_app, signals_sent_app, Hsig, Hlook, !app_nil_r.
  destruct (onboarding_calls_cases self o kwargs s)
    as [(slug & K & F & ->) | (N & ->)]; cbn.
  - split; split.
    + intros _. split; [eauto|done].
    + intros _. eauto.
    + intros [? _]. discriminate.
    + intros N. destruct N. split; [eauto|done].
  - split; split.
    + intros (? & ? & _ & ? & _). discriminate.
    + intros C. destruct (N C).
    + intros _. exact N.
    + done.
Qed.

(** The messages a scope enqueues: the demo disclaimer for the
    organization-bound demo view when [handle_react] returns, none
    otherwise. *)
Lemma messages_enqueued_by_scope (scope : Scope.t) (kwargs : gmap string string) (s : State) :
  messages_enqueued (new_calls s (snd (renderShell env scope kwargs s)))
  = scope_messages scope (fst (renderShell env scope kwargs s)).
Proof.
  rewrite renderShell_run.
  pose proof (react_outcome_log env (request s)) as (_ & Hmsg & _).
  destruct (react_outcome env (request s)) as [[out r'] l]. cbn [fst snd] in *.
  erewrite new_calls_app by reflexivity.
  destruct (scope_pre_log scope kwargs s) as (Hpre & _).
  destruct (scope_messages_log scope out) as (Hpost & _).
  rewrite !messages_enqueued_app, Hpre, Hmsg, Hpost. reflexivity.
Qed.

End Properties.

(** ** The properties on concrete requests *)

(** C2.  A request handled by [GenericDemoReactPageView] returns the shell
    with status 200 and enqueues no message, where the same request handled
    by [DemoReactPageView] enqueues the demo disclaimer once. *)
Theorem GenericDemo_enqueues_no_message :
  let s := Fixture.state_of "/sentry/earth/" ∅ in
  let generic_demo := renderShell Fixture.env Scope.GenericDemo ∅ s in
  let organization_demo :=
    renderShell Fixture.env (Scope.OrganizationDemo Fixture.acme) ∅ s in
  (exists resp, fst generic_demo = Returned resp /\ status_code resp = 200) /\
  messages_enqueued (new_calls s (snd generic_demo)) = [] /\
  _messages (request (snd generic_demo)) = [] /\
  messages_enqueued (new_calls s (snd organization_demo))
    = [mkMessage WARNING (ugettext_lazy demo_text)] /\
  _messages (request (snd organization_demo))
    = [mkMessage WARNING (ugettext_lazy demo_text)].
Proof.
  cbn zeta. split; [|split; [|split; [|split]]].
  - eexists. split; [vm_compute; reflexivity | reflexivity].
  - vm_compute. reflexivity.
  - vm_compute. reflexivity.
  - vm_compute. reflexivity.
  - vm_compute. reflexivity.
Qed.

(** C1, counterexample.  The slug matches no project of the organization,
    and a [first_event_pending] signal is sent all the same, with no
    project. *)
Lemma first_event_pending_sent_on_miss :
  let s := Fixture.state_of "/acme/nope/" {[ "onboarding" := ["1"] ]} in
  let kwargs : gmap string string := {[ "project_id" := "nope" ]} in
  ~ (Project_objects_filter (db s) Fixture.acme "nope" = [] ->
     signals_sent (new_calls s
       (snd (ReactPageView_handle Fixture.env ReactPageView Fixture.acme kwargs s))) = []).
Proof.
  cbn zeta. intros H.
  assert (E : Project_objects_filter
                (db (Fixture.state_of "/acme/nope/" {[ "onboarding" := ["1"] ]}))
                Fixture.acme "nope" = []) by (vm_compute; reflexivity).
  apply H in E. vm_compute in E. discriminate E.
Qed.

(** C1, witness: the same miss, seen through the theorem. *)
Lemma first_event_pending_carries_lookup_witness :
  let s := Fixture.state_of "/acme/nope/" {[ "onboarding" := ["1"] ]} in
  let kwargs : gmap string string := {[ "project_id" := "nope" ]} in
  exists found,
    signals_sent (new_calls s
      (snd (ReactPageView_handle Fixture.env ReactPageView Fixture.acme kwargs s)))
      = [(found, AuthenticatedUser 42, ReactPageView)].
Proof.
  cbn zeta.
  destruct (first_event_pending_carries_lookup Fixture.env ReactPageView Fixture.acme
              {[ "project_id" := "nope" ]}
              (Fixture.state_of "/acme/nope/" {[ "onboarding" := ["1"] ]}) "nope")
    as (found & Hsig & _).
  - reflexivity.
  - reflexivity.
  - exists found. exact Hsig.
Defined.

(** C4, counterexample.  The query is [?onboarding=]: the parameter is
    present with an empty value, a project slug is supplied, and the branch
    is skipped: no lookup, no signal. *)
Lemma empty_onboarding_value_skips_branch :
  let s := Fixture.state_of "/acme/backend/" {[ "onboarding" := [""] ]} in
  let kwargs : gmap string string := {[ "project_id" := "backend" ]} in
  let l := new_calls s
    (snd (ReactPageView_handle Fixture.env ReactPageView Fixture.acme kwargs s)) in
  GET (request s) !! "onboarding" = Some [""] /\
  kwargs !! "project_id" = Some "backend" /\
  lookups_made l = [] /\ signals_sent l = [].
Proof. cbn zeta. repeat split; vm_compute; reflexivity. Qed.

(** C5, witness: the organization-bound demo view on a demo path. *)
Lemma renderShell_returns_html_witness :
  exists resp s',
    renderShell Fixture.env (Scope.OrganizationDemo Fixture.acme) ∅
      (Fixture.state_of "/sentry/earth/acme/" ∅) = (Returned resp, s') /\
    status_code resp = 200 /\
    HttpResponse_getitem resp "Content-Type" = Some "text/html" /\
    headers resp = {[ "content-type" := ("Content-Type", "text/html") ]} /\
    content resp = "<html>fresh-token</html>".
Proof.
  apply (renderShell_returns_html Fixture.env (Scope.OrganizationDemo Fixture.acme) ∅
           (Fixture.state_of "/sentry/earth/acme/" ∅) "fresh-token"
           (<["CSRF_COOKIE_USED" := "True"]> (<["CSRF_COOKIE" := "fresh-token"]> ∅))).
  - reflexivity.
  - reflexivity.
Defined.

(** C6, witness: the render call is second in the log, after the token
    call. *)
Lemma csrf_token_before_render_witness :
  let s := Fixture.state_of "/acme/" ∅ in
  exists j token,
    (j < 1)%nat /\
    new_calls s (snd (handle_react Fixture.env s)) !! j = Some CallGetCsrfToken /\
    csrf_get_token Fixture.env (META (request s))
      = Some (token, <["CSRF_COOKIE_USED" := "True"]> (<["CSRF_COOKIE" := "fresh-token"]> ∅)).
Proof.
  cbn zeta.
  exact (csrf_token_before_render Fixture.env (Fixture.state_of "/acme/" ∅) 1
           "sentry/bases/react.html"
           (get_context Fixture.env (Fixture.request_of "/acme/" ∅))
           (with_META (Fixture.request_of "/acme/" ∅)
              (<["CSRF_COOKIE_USED" := "True"]> (<["CSRF_COOKIE" := "fresh-token"]> ∅)))
           eq_refl).
Defined.

(** ** Further properties of the views *)

Lemma token_calls_app l1 l2 : token_calls (l1 ++ l2) = token_calls l1 ++ token_calls l2.
Proof. apply omap_app. Qed.

Lemma renders_made_app l1 l2 : renders_made (l1 ++ l2) = renders_made l1 ++ renders_made l2.
Proof. apply omap_app. Qed.

Lemma length_append (a b : string) :
  String.length (a +:+ b) = (String.length a + String.length b)%nat.
Proof. induction a as [|c a IH]; [reflexivity|]. rewrite append_cons. cbn. lia. Qed.

Lemma scope_pre_no_core_call scope kwargs s :
  token_calls (scope_pre scope kwargs s) = [] /\ renders_made (scope_pre scope kwargs s) = [].
Proof.
  destruct scope; cbn; try done. unfold onboarding_calls.
  destruct (kwargs !! "project_id"); [destruct (truthy _)|]; done.
Qed.

Lemma scope_messages_no_core_call scope out :
  token_calls (map add_message_call (scope_messages scope out)) = [] /\
  renders_made (map add_message_call (scope_messages scope out)) = [].
Proof. destruct scope, out; done. Qed.

Section Further.

Variable env : Env.


(** X2.  Whatever the scope, a call asks the token service exactly once.  If
    the service fails nothing is rendered; otherwise the template engine is
    called exactly once, on the shell template, with the context of the
    request as it came in, and it sees the request object with [META] as the
    token service left it and everything else, the message storage included,
    as it came in. *)
Theorem one_token_call_then_one_render (scope : Scope.t) (kwargs : gmap string string)
    (s : State) :
  let l := new_calls s (snd (renderShell env scope kwargs s)) in
  token_calls l = [tt] /\
  renders_made l =
    match csrf_get_token env (META (request s)) with
    | Some (_, meta) =>
        [("sentry/bases/react.html", get_context env (request s),
          with_META (request s) meta)]
    | None => []
    end.
Proof.
  cbn zeta. rewrite renderShell_run.
  destruct (scope_pre_no_core_call scope kwargs s) as [Ht Hr].
  unfold react_outcome.
  destruct (csrf_get_token env (META (request s))) as [[token meta]|]; cbn zeta.
  - destruct (loader_render_to_string _ _ _ _); cbn [fst snd];
      (erewrite new_calls_app by reflexivity);
      rewrite !token_calls_app, !renders_made_app, Ht, Hr;
      match goal with |- context [scope_messages scope ?o] =>
        destruct (scope_messages_no_core_call scope o) as [-> ->] end; done.
  - cbn [fst snd]. erewrite new_calls_app by reflexivity.
    rewrite !token_calls_app, !renders_made_app, Ht, Hr.
    match goal with |- context [scope_messages scope ?o] =>
      destruct (scope_messages_no_core_call scope o) as [-> ->] end. done.
Qed.

(** X3.  When [ReactPageView.handle] takes its onboarding branch, the lookup
    comes first, the signal second, and only then the calls of
    [handle_react]: the signal is out before the token service or the
    template engine is asked. *)
Theorem ReactPageView_handle_signals_first (self : View) (o : Organization)
    (kwargs : gmap string string) (s : State) (slug : string) :
  kwargs !! "project_id" = Some slug ->
  truthy (QueryDict_get (GET (request s)) "onboarding") = true ->
  new_calls s (snd (ReactPageView_handle env self o kwargs s)) =
    [CallFilterFirst o slug;
     CallSend (QuerySet_first (Project_objects_filter (db s) o slug))
              (user (request s)) self]
    ++ new_calls s (snd (handle_react env s)).
Proof.
  intros K T. rewrite ReactPageView_handle_run, handle_react_run.
  destruct (react_outcome env (request s)) as [[out r'] l]. cbn [fst snd].
  erewrite !new_calls_app by reflexivity.
  unfold onboarding_calls. rewrite K, T. reflexivity.
Qed.

(** X4.  [DemoReactPageView.handle] enqueues the demo disclaimer only when
    [handle_react] returned, after its calls and behind the messages already
    stored; when [handle_react] raises, the view stops there and the state is
    the one [handle_react] left. *)
Theorem DemoReactPageView_handle_message (self : View) (o : Organization)
    (kwargs : gmap string string) (s : State) :
  let run := DemoReactPageView_handle env self o kwargs s in
  match fst (handle_react env s) with
  | Returned resp =>
      fst run = Returned resp /\
      _messages (request (snd run))
        = _messages (request s) ++ [mkMessage WARNING (ugettext_lazy demo_text)] /\
      new_calls s (snd run)
        = new_calls s (snd (handle_react env s))
          ++ [CallAddMessage WARNING (ugettext_lazy demo_text)]
  | Raised e => run = (Raised e, snd (handle_react env s))
  end.
Proof.
  cbn zeta. rewrite DemoReactPageView_handle_run, handle_react_run.
  assert (Hm : _messages (snd (fst (react_outcome env (request s))))
               = _messages (request s)).
  { unfold react_outcome. destruct (csrf_get_token _ _) as [[token meta]|]; cbn; [|done].
    destruct (loader_render_to_string _ _ _ _); done. }
  destruct (react_outcome env (request s)) as [[[resp|e] r'] l]; cbn [fst snd] in *.
  - split; [reflexivity|]. split.
    + cbn. rewrite Hm. reflexivity.
    + erewrite !new_calls_app by reflexivity. reflexivity.
  - reflexivity.
Qed.

(** X5.  The outcome of a call and the [META] it leaves depend on the request
    object only: not on the scope, not on the URL arguments, not on what the
    data base holds, not on earlier calls. *)
Theorem response_depends_on_request_only (scope1 scope2 : Scope.t)
    (kwargs1 kwargs2 : gmap string string) (s1 s2 : State) :
  request s1 = request s2 ->
  fst (renderShell env scope1 kwargs1 s1) = fst (renderShell env scope2 kwargs2 s2) /\
  META (request (snd (renderShell env scope1 kwargs1 s1)))
    = META (request (snd (renderShell env scope2 kwargs2 s2))).
Proof.
  intros E. rewrite !renderShell_run, E.
  destruct (react_outcome env (request s2)) as [[out r'] l]. cbn. done.
Qed.

(** X6.  A path shorter than the demo prefix, the empty path and
    [/sentry/earth] without its final slash among them, is not a demo path. *)
Theorem short_path_is_not_demo (req : HttpRequest) :
  (String.length (path req) < 14)%nat ->
  get_context env req !! "is_demo" = Some (VBool false).
Proof.
  intros Hlen.
  assert (startswith (path req) "/sentry/earth/" = false) as S.
  { destruct (startswith (path req) "/sentry/earth/") eqn:S; [|reflexivity].
    apply startswith_spec in S as [rest E]. rewrite E, length_append in Hlen.
    cbn in Hlen. lia. }
  unfold get_context. rewrite S.
  rewrite !lookup_insert_ne by done. apply lookup_insert_eq.
Qed.

(** X7.  Without a project slug, or with an absent or empty onboarding value,
    [ReactPageView.handle] is [handle_react] and nothing more: same outcome,
    same state, same log. *)
Theorem ReactPageView_handle_without_onboarding (self : View) (o : Organization)
    (kwargs : gmap string string) (s : State) :
  kwargs !! "project_id" = None \/
  truthy (QueryDict_get (GET (request s)) "onboarding") = false ->
  ReactPageView_handle env self o kwargs s = handle_react env s.
Proof.
  intros H. rewrite ReactPageView_handle_run, handle_react_run.
  assert (onboarding_calls self o kwargs s = []) as ->.
  { unfold onboarding_calls. destruct H as [-> | ->]; [reflexivity|].
    destruct (kwargs !! "project_id"); reflexivity. }
  destruct (react_outcome env (request s)) as [[out r'] l]. reflexivity.
Qed.

(** X8.  Only the organization page looks projects up and sends the signal:
    under every other scope no lookup is made and no signal is sent. *)
Theorem only_organization_scope_signals (scope : Scope.t) (kwargs : gmap string string)
    (s : State) :
  (forall o, scope <> Scope.Organization o) ->
  let l := new_calls s (snd (renderShell env scope kwargs s)) in
  lookups_made l = [] /\ signals_sent l = [].
Proof.
  intros Hscope. cbn zeta. rewrite renderShell_run.
  pose proof (react_outcome_log env (request s)) as (Hsig & _ & Hlook & _).
  destruct (react_outcome env (request s)) as [[out r'] l]. cbn [fst snd] in *.
  erewrite new_calls_app by reflexivity.
  destruct (scope_messages_log scope out) as (_ & Hs & Hl & _).
  rewrite !lookups_made_app, !signals_sent_app, Hsig, Hlook, Hs, Hl.
  destruct scope as [| |o|o]; try done. destruct (Hscope o). reflexivity.
Qed.

End Further.

(** ** The further properties on concrete requests *)


(** X3, witness: the project is found and the page renders. *)
Lemma ReactPageView_handle_signals_first_witness :
  let s := Fixture.state_of "/acme/backend/" {[ "onboarding" := ["1"] ]} in
  new_calls s (snd (ReactPageView_handle Fixture.env ReactPageView Fixture.acme
                      {[ "project_id" := "backend" ]} s)) =
    [CallFilterFirst Fixture.acme "backend";
     CallSend (QuerySet_first (Project_objects_filter (db s) Fixture.acme "backend"))
              (user (request s)) ReactPageView]
    ++ new_calls s (snd (handle_react Fixture.env s)).
Proof.
  exact (ReactPageView_handle_signals_first Fixture.env ReactPageView Fixture.acme
           {[ "project_id" := "backend" ]}
           (Fixture.state_of "/acme/backend/" {[ "onboarding" := ["1"] ]})
           "backend" eq_refl eq_refl).
Defined.

(** X5, witness: the same request under two scopes, with and without
    projects in the data base. *)
Lemma response_depends_on_request_only_witness :
  let s1 := Fixture.state_of "/acme/backend/" {[ "onboarding" := ["1"] ]} in
  let s2 := mkState (request s1) [] [CallGetCsrfToken] in
  fst (renderShell Fixture.env (Scope.Organization Fixture.acme)
         {[ "project_id" := "backend" ]} s1)
    = fst (renderShell Fixture.env Scope.GenericDemo ∅ s2) /\
  META (request (snd (renderShell Fixture.env (Scope.Organization Fixture.acme)
                        {[ "project_id" := "backend" ]} s1)))
    = META (request (snd (renderShell Fixture.env Scope.GenericDemo ∅ s2))).
Proof.
  exact (response_depends_on_request_only Fixture.env
           (Scope.Organization Fixture.acme) Scope.GenericDemo
           {[ "project_id" := "backend" ]} ∅
           (Fixture.state_of "/acme/backend/" {[ "onboarding" := ["1"] ]})
           (mkState (Fixture.request_of "/acme/backend/" {[ "onboarding" := ["1"] ]})
                    [] [CallGetCsrfToken])
           eq_refl).
Defined.

(** X6, witness: the demo prefix without its final slash. *)
Lemma short_path_is_not_demo_witness :
  get_context Fixture.env (Fixture.request_of "/sentry/earth" ∅) !! "is_demo"
    = Some (VBool false).
Proof.
  apply (short_path_is_not_demo Fixture.env (Fixture.request_of "/sentry/earth" ∅)).
  cbn. lia.
Defined.

(** X7, witness: a project slug and the query [?onboarding=]. *)
Lemma ReactPageView_handle_without_onboarding_witness :
  let s := Fixture.state_of "/acme/backend/" {[ "onboarding" := [""] ]} in
  ReactPageView_handle Fixture.env ReactPageView Fixture.acme
    {[ "project_id" := "backend" ]} s
  = handle_react Fixture.env s.
Proof.
  apply (ReactPageView_handle_without_onboarding Fixture.env ReactPageView Fixture.acme
           {[ "project_id" := "backend" ]}
           (Fixture.state_of "/acme/backend/" {[ "onboarding" := [""] ]})).
  right. reflexivity.
Defined.

(** X8, witness: the organization-bound demo page, onboarding requested. *)
Lemma only_organization_scope_signals_witness :
  let s := Fixture.state_of "/sentry/earth/acme/" {[ "onboarding" := ["1"] ]} in
  let l := new_calls s
    (snd (renderShell Fixture.env (Scope.OrganizationDemo Fixture.acme)
            {[ "project_id" := "backend" ]} s)) in
  lookups_made l = [] /\ signals_sent l = [].
Proof.
  apply (only_organization_scope_signals Fixture.env
           (Scope.OrganizationDemo Fixture.acme) {[ "project_id" := "backend" ]}
           (Fixture.state_of "/sentry/earth/acme/" {[ "onboarding" := ["1"] ]})).
  intros o. discriminate.
Defined.
